(** * Water-Quality-Checker: the generator, the year filter and the headline
      labels of [Main.py], embedded in Rocq.

    Number model.  The script computes with IEEE doubles; here every float is
    an exact rational ([Q]), so [+], [-], [*], [/], [abs] and the comparisons
    are the exact ones.  The two sources of values that the script takes from
    NumPy are kept abstract:
    - [sin_] stands for [np.sin];
    - [gauss seed k] stands for the [k]-th standard normal deviate that the
      legacy global generator hands out after [np.random.seed seed].
    Nothing is assumed about either unless a statement says so. *)

From Stdlib Require Import String QArith Qabs Lqa Lia ZArith Bool List Sorted.
Import ListNotations.

Open Scope Q_scope.

(** ** Calendar dates and [pd.date_range (..., freq='M')] *)

Record Date : Type := mkDate { year : Z; month : Z; day : Z }.

Definition is_leap (y : Z) : bool :=
  (((y mod 4 =? 0) && negb (y mod 100 =? 0)) || (y mod 400 =? 0))%Z.

Definition days_in_month (y m : Z) : Z :=
  if (m =? 2)%Z then (if is_leap y then 29 else 28)%Z
  else if ((m =? 4) || (m =? 6) || (m =? 9) || (m =? 11))%Z then 30%Z
  else 31%Z.

(** The month-end timestamp of month [m] of year [y]. *)
Definition month_end (y m : Z) : Date := mkDate y m (days_in_month y m).

(** Chronological order on dates. *)
Definition date_leb (a b : Date) : bool :=
  ((year a <? year b)
   || ((year a =? year b)
       && ((month a <? month b)
           || ((month a =? month b) && (day a <=? day b)))))%Z.

(** [k] successive month ends, starting with month [m] of year [y]. *)
Fixpoint month_ends (k : nat) (y m : Z) : list Date :=
  match k with
  | O => []
  | S k' =>
      month_end y m ::
      (if (m =? 12)%Z then month_ends k' (y + 1)%Z 1%Z
       else month_ends k' y (m + 1)%Z)
  end.

(** [pd.date_range(start, end, freq='M')]: the month-end timestamps [d] with
    [start <= d <= end], in increasing order.  Every candidate lies in one of
    the calendar months from [start]'s to [end]'s. *)
Definition date_range (start end_ : Date) : list Date :=
  let span :=
    Z.to_nat ((year end_ - year start) * 12 + (month end_ - month start) + 1)
  in
  filter (fun d => date_leb start d && date_leb d end_)
         (month_ends span (year start) (month start)).

(** ** NumPy arrays as lists *)

Fixpoint zip_with {A B C : Type} (f : A -> B -> C)
         (xs : list A) (ys : list B) : list C :=
  match xs, ys with
  | x :: xs', y :: ys' => f x y :: zip_with f xs' ys'
  | _, _ => []
  end.

(** [np.arange(n)] *)
Definition arange (n : nat) : list Q :=
  map (fun i => inject_Z (Z.of_nat i)) (seq 0 n).

(** [np.clip(x, lo, hi)] is [minimum(maximum(x, lo), hi)]. *)
Definition maximum (x y : Q) : Q := if Qle_bool x y then y else x.
Definition minimum (x y : Q) : Q := if Qle_bool x y then x else y.
Definition clip1 (x lo hi : Q) : Q := minimum (maximum x lo) hi.
Definition clip (xs : list Q) (lo hi : Q) : list Q :=
  map (fun x => clip1 x lo hi) xs.

(** ** The global random state *)

Record RandomState : Type := mkRandomState { rs_seed : Z; rs_pos : nat }.

(** Computations that read and advance the global random state. *)
Definition Rand (A : Type) : Type := RandomState -> A * RandomState.

Definition ret {A : Type} (a : A) : Rand A := fun st => (a, st).

Definition bind {A B : Type} (c : Rand A) (k : A -> Rand B) : Rand B :=
  fun st => let (a, st') := c st in k a st'.

Notation "x <- c ;; k" := (bind c (fun x => k))
  (at level 61, c at next level, right associativity).
Notation "c ;;; k" := (bind c (fun _ => k))
  (at level 61, right associativity).

(** [np.random.seed(s)] *)
Definition seed (s : Z) : Rand unit :=
  fun _ => (tt, mkRandomState s 0).

(** ** The frame *)

Record Row : Type := mkRow {
  Date_ : Date;
  pH : Q;
  TDS : Q;
  Turbidity : Q;
  Dissolved_Oxygen : Q;
  Quality_Score : Q
}.

(** [pd.DataFrame({...})] from six columns; the script always passes columns
    of one length. *)
Fixpoint DataFrame (c0 : list Date) (c1 c2 c3 c4 c5 : list Q) : list Row :=
  match c0, c1, c2, c3, c4, c5 with
  | d :: c0', a :: c1', b :: c2', c :: c3', e :: c4', q :: c5' =>
      mkRow d a b c e q :: DataFrame c0' c1' c2' c3' c4' c5'
  | _, _, _, _, _, _ => []
  end.

(** The local variables of [generate_water_quality_data] at its [return]. *)
Record Locals : Type := mkLocals {
  l_dates : list Date;
  l_n : nat;
  l_ph : list Q;
  l_tds : list Q;
  l_turbidity : list Q;
  l_do : list Q;
  l_ph_score : list Q;
  l_tds_score : list Q;
  l_turbidity_score : list Q;
  l_do_score : list Q;
  l_quality_score : list Q;
  l_df : list Row
}.

(** The per-element arithmetic of the sub-scores, as the script writes it. *)
Definition ph_score1 (ph : Q) : Q := 100 - Qabs (7.5 - ph) * 20.
Definition tds_score1 (tds : Q) : Q := clip1 (100 - (tds - 200) / 5) 0 100.
Definition turbidity_score1 (t : Q) : Q := clip1 (100 - t * 15) 0 100.
Definition do_score1 (d : Q) : Q := clip1 (d * 12) 0 100.

Section Generator.

Variable sin_ : Q -> Q.
Variable gauss : Z -> nat -> Q.

(** [np.random.normal(loc, scale, n)]: the next [n] deviates of the stream,
    each scaled and shifted. *)
Definition normal (loc scale : Q) (n : nat) : Rand (list Q) :=
  fun st =>
    (map (fun j => loc + scale * gauss (rs_seed st) (rs_pos st + j))
         (seq 0 n),
     mkRandomState (rs_seed st) (rs_pos st + n)).

(** [c * np.sin(np.arange(n) * w)] *)
Definition wave (c w : Q) (n : nat) : list Q :=
  map (fun s => c * s) (map sin_ (map (fun i => i * w) (arange n))).

Definition generate_locals : Rand Locals :=
  let dates := date_range (mkDate 2000 1 1) (mkDate 2025 11 3) in
  seed 42 ;;;
  let n := length dates in
  g_ph <- normal 0 0.3 n ;;
  let ph := zip_with Qplus (map (fun g => 7.5 + g) g_ph) (wave 0.2 0.1 n) in
  g_tds <- normal 0 50 n ;;
  let tds := zip_with Qplus (map (fun g => 250 + g) g_tds) (wave 30 0.15 n) in
  let tds := clip tds 150 600 in
  g_tu <- normal 0 1 n ;;
  let turbidity :=
    zip_with Qplus (map (fun g => 2 + g) g_tu) (wave 1.5 0.2 n) in
  let turbidity := clip turbidity 0.5 8 in
  g_do <- normal 0 0.8 n ;;
  let do := zip_with Qminus (map (fun g => 7 + g) g_do) (wave 0.5 0.12 n) in
  let do := clip do 4 9 in
  let ph_score :=
    map (fun a => 100 - a) (map (fun a => a * 20)
      (map Qabs (map (fun p => 7.5 - p) ph))) in
  let tds_score :=
    clip (map (fun a => 100 - a)
           (map (fun a => a / 5) (map (fun t => t - 200) tds))) 0 100 in
  let turbidity_score :=
    clip (map (fun a => 100 - a) (map (fun t => t * 15) turbidity)) 0 100 in
  let do_score := clip (map (fun d => d * 12) do) 0 100 in
  let quality_score :=
    map (fun s => s / 4)
        (zip_with Qplus
           (zip_with Qplus (zip_with Qplus ph_score tds_score)
                     turbidity_score)
           do_score) in
  let df := DataFrame dates ph tds turbidity do quality_score in
  ret (mkLocals dates n ph tds turbidity do ph_score tds_score
                turbidity_score do_score quality_score df).

Definition generate_water_quality_data : Rand (list Row) :=
  loc <- generate_locals ;; ret (l_df loc).

(** The frame the script binds to [df], from random state [st0]. *)
Definition df_from (st0 : RandomState) : list Row :=
  fst (generate_water_quality_data st0).

(** *** Per-index reading of the columns

    [dates0] and [n0] are the script's [dates] and [n]; the [_at] functions
    say which deviate and which sine value entry [i] of each column is
    built from. *)

Definition dates0 : list Date :=
  date_range (mkDate 2000 1 1) (mkDate 2025 11 3).
Definition n0 : nat := length dates0.

Definition idx (i : nat) : Q := inject_Z (Z.of_nat i).

Definition ph_at (i : nat) : Q :=
  7.5 + (0 + 0.3 * gauss 42 i) + 0.2 * sin_ (idx i * 0.1).
Definition tds_at (i : nat) : Q :=
  clip1 (250 + (0 + 50 * gauss 42 (n0 + i)) + 30 * sin_ (idx i * 0.15))
        150 600.
Definition turbidity_at (i : nat) : Q :=
  clip1 (2 + (0 + 1 * gauss 42 (n0 + n0 + i)) + 1.5 * sin_ (idx i * 0.2))
        0.5 8.
Definition do_at (i : nat) : Q :=
  clip1 (7 + (0 + 0.8 * gauss 42 (n0 + n0 + n0 + i))
           - 0.5 * sin_ (idx i * 0.12))
        4 9.
Definition quality_at (i : nat) : Q :=
  (ph_score1 (ph_at i) + tds_score1 (tds_at i)
   + turbidity_score1 (turbidity_at i) + do_score1 (do_at i)) / 4.
Definition row_at (d : Date) (i : nat) : Row :=
  mkRow d (ph_at i) (tds_at i) (turbidity_at i) (do_at i) (quality_at i).

End Generator.

(** A constant stream of deviates under which entry 0 of the pH column
    comes out as [target]. *)
Definition stream_with_first_ph (sin_ : Q -> Q) (target : Q)
  : Z -> nat -> Q :=
  fun _ _ => (target - 7.5 - 0.2 * sin_ (idx 0 * 0.1)) * (10 # 3).

(** ** Year filter and the latest reading *)

(** [(df['Date'].dt.year >= year_range[0]) & (df['Date'].dt.year <= year_range[1])] *)
Definition mask (df : list Row) (year_range : Z * Z) : list bool :=
  let years := map (fun r => year (Date_ r)) df in
  zip_with andb
    (map (fun y => (y >=? fst year_range)%Z) years)
    (map (fun y => (y <=? snd year_range)%Z) years).

(** [df[mask]]: the rows whose mask entry is [True], in order. *)
Fixpoint boolean_index {A : Type} (rows : list A) (m : list bool) : list A :=
  match rows, m with
  | r :: rows', b :: m' =>
      if b then r :: boolean_index rows' m' else boolean_index rows' m'
  | _, _ => []
  end.

Definition filtered_df (df : list Row) (year_range : Z * Z) : list Row :=
  boolean_index df (mask df year_range).

(** Python exceptions, by class name. *)
Definition exn : Type := string.

(** [frame.iloc[i]] for an integer [i]: negative positions count from the
    end, and a position outside [-len, len) raises [IndexError]. *)
Definition iloc {A : Type} (frame : list A) (i : Z) : exn + A :=
  let len := Z.of_nat (length frame) in
  let j := if (i <? 0)%Z then (i + len)%Z else i in
  if ((j <? 0) || (len <=? j))%Z then inl "IndexError"%string
  else match nth_error frame (Z.to_nat j) with
       | Some r => inr r
       | None => inl "IndexError"%string
       end.

Definition latest (filtered : list Row) : exn + Row := iloc filtered (-1).

(** ** Headline labels *)

Definition Qlt_bool (x y : Q) : bool := negb (Qle_bool y x).

Definition ph_delta (ph : Q) : string :=
  if Qle_bool 6.5 ph && Qle_bool ph 8.5 then "Optimal" else "Outside Range".

Definition tds_delta (tds : Q) : string :=
  if Qlt_bool tds 300 then "Good" else "Moderate".

Definition turbidity_delta (t : Q) : string :=
  if Qlt_bool t 5 then "Clear" else "Cloudy".

Definition status (quality : Q) : string :=
  if Qlt_bool 80 quality then "Excellent"
  else if Qlt_bool 60 quality then "Good"
  else "Fair".

(** ** The slider and the script's path to the latest reading *)

(** The pairs that are positions of a range slider: both handles between
    [min_value] and [max_value], the lower handle not above the upper. *)
Definition offered (min_value max_value : Z) (ui : option (Z * Z)) : bool :=
  match ui with
  | Some (lo, hi) => ((min_value <=? lo) && (lo <=? hi) && (hi <=? max_value))%Z
  | None => true
  end.

(** [st.sidebar.slider(label, min_value, max_value, value)] with a pair as
    [value].  [ui] is the widget state the run starts from: [None] before any
    interaction, [Some p] when a pair [p] is reported.  A reported pair that
    is a position of the slider is handed to the script; any other pair is
    discarded and the script gets the default [value]. *)
Definition slider (min_value max_value : Z) (value : Z * Z)
           (ui : option (Z * Z)) : Z * Z :=
  match ui with
  | Some v => if offered min_value max_value ui then v else value
  | None => value
  end.

Definition year_range (ui : option (Z * Z)) : Z * Z :=
  slider 2000 2025 (2000, 2025)%Z ui.



Section Script.

Variable sin_ : Q -> Q.
Variable gauss : Z -> nat -> Q.
Variable st0 : RandomState.




End Script.

(** ** Vocabulary of the statements *)

(** The year test of one date against an inclusive pair of bounds. *)
Definition year_in (yr : Z * Z) (d : Date) : bool :=
  ((year d >=? fst yr) && (year d <=? snd yr))%Z.

Definition in_year_range (yr : Z * Z) (r : Row) : bool :=
  year_in yr (Date_ r).

Fixpoint nondecreasing (l : list Z) : bool :=
  match l with
  | a :: t =>
      match t with
      | b :: _ => (a <=? b)%Z && nondecreasing t
      | [] => true
      end
  | [] => true
  end.


(** ** Statistics summary *)

(** [Series.sum()] *)
Definition total (xs : list Q) : Q := fold_right Qplus 0 xs.

(** [Series.mean()]: the sum over the count; on an empty series pandas
    answers NaN, which is [None] here.  Sum and quotient are exact, where
    pandas rounds each step; the averages are therefore only used in order
    statements, which rounding to nearest preserves for bounds that are
    doubles. *)
Definition mean (xs : list Q) : option Q :=
  match xs with
  | [] => None
  | _ :: _ => Some (total xs / inject_Z (Z.of_nat (length xs)))
  end.

(** The five numbers behind the "Average Values" table, before formatting. *)
Record Averages : Type := mkAverages {
  avg_pH : option Q;
  avg_TDS : option Q;
  avg_Turbidity : option Q;
  avg_Dissolved_Oxygen : option Q;
  avg_Quality_Score : option Q
}.

Definition averages (filtered : list Row) : Averages :=
  mkAverages (mean (map pH filtered))
             (mean (map TDS filtered))
             (mean (map Turbidity filtered))
             (mean (map Dissolved_Oxygen filtered))
             (mean (map Quality_Score filtered)).

(** ** Columns by name and the parameter selector *)

Inductive value : Type :=
| VDate (d : Date)
| VFloat (x : Q).

(** The keys of the dictionary the frame is built from. *)
Definition columns : list string :=
  ["Date"; "pH"; "TDS (mg/L)"; "Turbidity (NTU)"; "Dissolved Oxygen (mg/L)";
   "Quality Score"]%string.

(** [row[name]]: the entry of a row under a column label, [KeyError] for a
    label the frame does not have. *)
Definition getitem (r : Row) (name : string) : exn + value :=
  if (name =? "Date")%string then inr (VDate (Date_ r))
  else if (name =? "pH")%string then inr (VFloat (pH r))
  else if (name =? "TDS (mg/L)")%string then inr (VFloat (TDS r))
  else if (name =? "Turbidity (NTU)")%string then inr (VFloat (Turbidity r))
  else if (name =? "Dissolved Oxygen (mg/L)")%string
       then inr (VFloat (Dissolved_Oxygen r))
  else if (name =? "Quality Score")%string
       then inr (VFloat (Quality_Score r))
  else inl "KeyError"%string.

(** [st.selectbox(label, options)]: the first option until the user picks
    one, then the option at the picked position. *)
Definition selectbox (options : list string) (ui : option nat) : string :=
  nth (match ui with Some i => i | None => 0%nat end) options ""%string.

Definition parameter_options : list string :=
  ["pH"; "TDS (mg/L)"; "Turbidity (NTU)"; "Dissolved Oxygen (mg/L)"]%string.

Definition parameter (ui : option nat) : string :=
  selectbox parameter_options ui.

(** The points of [px.line(filtered_df, x='Date', y=name)], one per row;
    plotly refuses a [y] that is not a column of the frame with a
    [ValueError]. *)
Fixpoint points_of (rows : list Row) (name : string)
  : exn + list (Date * value) :=
  match rows with
  | [] => inr []
  | r :: rest =>
      match getitem r name with
      | inl e => inl e
      | inr y =>
          match points_of rest name with
          | inl e => inl e
          | inr pts => inr ((Date_ r, y) :: pts)
          end
      end
  end.

Definition line_points (filtered : list Row) (name : string)
  : exn + list (Date * value) :=
  if existsb (String.eqb name) columns then points_of filtered name
  else inl "ValueError"%string.

(** ** More vocabulary of the statements *)

(** Strict chronological order. *)
Definition date_ltb (a b : Date) : bool :=
  ((year a <? year b)
   || ((year a =? year b)
       && ((month a <? month b)
           || ((month a =? month b) && (day a <? day b)))))%Z.

Definition date_eqb (a b : Date) : bool :=
  ((year a =? year b) && (month a =? month b) && (day a =? day b))%Z.

Fixpoint strictly_increasing (l : list Date) : bool :=
  match l with
  | a :: t => forallb (date_ltb a) t && strictly_increasing t
  | [] => true
  end.

(** The years the slider can be set to. *)
Definition domain_years : list Z := map Z.of_nat (seq 2000 26).

(** The month end a selection with upper bound [hi] ends on. *)
Definition last_month_end (hi : Z) : Date :=
  if (hi =? 2025)%Z then mkDate 2025 10 31 else mkDate hi 12 31.

(** The frame under a silent sine and a stream of zero deviates, for
    concrete runs. *)
Definition flat_frame : list Row :=
  df_from (fun _ => 0) (fun _ _ => 0) (mkRandomState 0 0).

(** * Properties *)

(** ** Lists *)

Lemma zip_with_map {A B C D : Type} (f : B -> C -> D) (g : A -> B)
      (h : A -> C) (l : list A) :
  zip_with f (map g l) (map h l) = map (fun x => f (g x) (h x)) l.
Proof.
  induction l as [|a l IH]; simpl; [reflexivity|].
  now rewrite IH.
Qed.

Lemma DataFrame_map {A : Type} (ds : list Date) (f1 f2 f3 f4 f5 : A -> Q)
      (l : list A) :
  DataFrame ds (map f1 l) (map f2 l) (map f3 l) (map f4 l) (map f5 l)
  = zip_with (fun d x => mkRow d (f1 x) (f2 x) (f3 x) (f4 x) (f5 x)) ds l.
Proof.
  revert ds; induction l as [|a l IH]; intros [|d ds]; simpl; try reflexivity.
  now rewrite IH.
Qed.

Lemma map_zip_with_left {A B C : Type} (f : A -> B -> C) (g : C -> A)
      (xs : list A) (ys : list B) :
  (forall a b, g (f a b) = a) -> length xs = length ys ->
  map g (zip_with f xs ys) = xs.
Proof.
  intros Hg.
  revert ys; induction xs as [|x xs IH]; intros [|y ys] H; simpl in *;
    try reflexivity; try discriminate.
  rewrite Hg. f_equal. apply IH. now injection H.
Qed.

Lemma Forall_zip_with {A B C : Type} (P : C -> Prop) (f : A -> B -> C)
      (xs : list A) (ys : list B) :
  (forall a b, P (f a b)) -> Forall P (zip_with f xs ys).
Proof.
  intros HP.
  revert ys; induction xs as [|x xs IH]; intros [|y ys]; simpl;
    constructor; auto.
Qed.

Lemma Forall_map_all {A B : Type} (P : B -> Prop) (f : A -> B) (l : list A) :
  (forall a, P (f a)) -> Forall P (map f l).
Proof.
  intros HP. induction l; simpl; constructor; auto.
Qed.

Lemma map_zip_with_right {A B C D : Type} (f : A -> B -> C) (g : C -> D)
      (h : B -> D) (xs : list A) (ys : list B) :
  (forall a b, g (f a b) = h b) -> length xs = length ys ->
  map g (zip_with f xs ys) = map h ys.
Proof.
  intros Hg.
  revert ys; induction xs as [|x xs IH]; intros [|y ys] H; simpl in *;
    try reflexivity; try discriminate.
  rewrite Hg. f_equal. apply IH. now injection H.
Qed.

Lemma nth_map_seq {A : Type} (f : nat -> A) (n i : nat) (d : A) :
  (i < n)%nat -> nth i (map f (seq 0 n)) d = f i.
Proof.
  intros Hi.
  rewrite (nth_indep _ d (f 0%nat)) by now rewrite length_map, length_seq.
  rewrite map_nth, seq_nth by assumption. reflexivity.
Qed.

Lemma map_seq_ext {A : Type} (f g : nat -> A) (n : nat) :
  (forall i, (i < n)%nat -> f i = g i) -> map f (seq 0 n) = map g (seq 0 n).
Proof.
  intros H. apply map_ext_in. intros i Hi. apply in_seq in Hi.
  apply H. lia.
Qed.

(** ** Comparisons and clipping *)

Lemma Qle_bool_false (x y : Q) : Qle_bool x y = false -> y < x.
Proof.
  intros E. apply Qnot_le_lt. intros H.
  apply Qle_bool_iff in H. congruence.
Qed.

Lemma Qlt_bool_iff (x y : Q) : Qlt_bool x y = true <-> x < y.
Proof.
  unfold Qlt_bool. destruct (Qle_bool y x) eqn:E; simpl.
  - apply Qle_bool_iff in E. split; [discriminate | intros H; lra].
  - apply Qle_bool_false in E. tauto.
Qed.

Lemma clip1_bounds (x lo hi : Q) : lo <= hi -> lo <= clip1 x lo hi <= hi.
Proof.
  intros H. unfold clip1, minimum, maximum.
  destruct (Qle_bool x lo) eqn:E1.
  - destruct (Qle_bool lo hi) eqn:E2; lra.
  - apply Qle_bool_false in E1.
    destruct (Qle_bool x hi) eqn:E2.
    + apply Qle_bool_iff in E2. lra.
    + lra.
Qed.

Lemma Qabs_ge_opp (x : Q) : - x <= Qabs x.
Proof.
  rewrite <- Qabs_opp. apply Qle_Qabs.
Qed.

Lemma ph_score1_le_100 (ph : Q) : ph_score1 ph <= 100.
Proof.
  unfold ph_score1. pose proof (Qabs_nonneg (7.5 - ph)). lra.
Qed.

Lemma ph_score1_upper (ph : Q) : ph_score1 ph <= 100 - (ph - 7.5) * 20.
Proof.
  unfold ph_score1. pose proof (Qabs_ge_opp (7.5 - ph)). lra.
Qed.

Lemma tds_score1_range (x : Q) : 0 <= tds_score1 x <= 100.
Proof. apply clip1_bounds. lra. Qed.

Lemma turbidity_score1_range (x : Q) : 0 <= turbidity_score1 x <= 100.
Proof. apply clip1_bounds. lra. Qed.

Lemma do_score1_range (x : Q) : 0 <= do_score1 x <= 100.
Proof. apply clip1_bounds. lra. Qed.

(** ** The date column *)

Lemma n0_value : n0 = 310%nat.
Proof. vm_compute. reflexivity. Qed.

Lemma dates0_month_ends : dates0 = month_ends 310 2000 1.
Proof. vm_compute. reflexivity. Qed.

Section GeneratorFacts.

Variable sin_ : Q -> Q.
Variable gauss : Z -> nat -> Q.

Lemma generate_locals_closed_form (st0 : RandomState) :
  generate_locals sin_ gauss st0 =
  (mkLocals dates0 n0
     (map (ph_at sin_ gauss) (seq 0 n0))
     (map (tds_at sin_ gauss) (seq 0 n0))
     (map (turbidity_at sin_ gauss) (seq 0 n0))
     (map (do_at sin_ gauss) (seq 0 n0))
     (map (fun i => ph_score1 (ph_at sin_ gauss i)) (seq 0 n0))
     (map (fun i => tds_score1 (tds_at sin_ gauss i)) (seq 0 n0))
     (map (fun i => turbidity_score1 (turbidity_at sin_ gauss i)) (seq 0 n0))
     (map (fun i => do_score1 (do_at sin_ gauss i)) (seq 0 n0))
     (map (quality_at sin_ gauss) (seq 0 n0))
     (zip_with (row_at sin_ gauss) dates0 (seq 0 n0)),
   mkRandomState 42 (n0 + n0 + n0 + n0)).
Proof.
  cbv [generate_locals bind seed normal ret wave clip arange
       rs_seed rs_pos].
  fold dates0. fold n0.
  repeat (rewrite ?map_map, ?zip_with_map).
  rewrite DataFrame_map.
  unfold row_at, quality_at, do_at, turbidity_at, tds_at, ph_at, ph_score1,
    tds_score1, turbidity_score1, do_score1, idx.
  cbn [Nat.add].
  generalize n0, dates0. intros n ds. reflexivity.
Qed.

Lemma locals_closed_form (st0 : RandomState) :
  fst (generate_locals sin_ gauss st0) =
  mkLocals dates0 n0
    (map (ph_at sin_ gauss) (seq 0 n0))
    (map (tds_at sin_ gauss) (seq 0 n0))
    (map (turbidity_at sin_ gauss) (seq 0 n0))
    (map (do_at sin_ gauss) (seq 0 n0))
    (map (fun i => ph_score1 (ph_at sin_ gauss i)) (seq 0 n0))
    (map (fun i => tds_score1 (tds_at sin_ gauss i)) (seq 0 n0))
    (map (fun i => turbidity_score1 (turbidity_at sin_ gauss i)) (seq 0 n0))
    (map (fun i => do_score1 (do_at sin_ gauss i)) (seq 0 n0))
    (map (quality_at sin_ gauss) (seq 0 n0))
    (zip_with (row_at sin_ gauss) dates0 (seq 0 n0)).
Proof.
  rewrite generate_locals_closed_form. reflexivity.
Qed.

Lemma generate_closed_form (st0 : RandomState) :
  generate_water_quality_data sin_ gauss st0 =
  (zip_with (row_at sin_ gauss) dates0 (seq 0 n0),
   mkRandomState 42 (n0 + n0 + n0 + n0)).
Proof.
  unfold generate_water_quality_data, bind, ret.
  rewrite generate_locals_closed_form. reflexivity.
Qed.

Lemma df_closed_form (st0 : RandomState) :
  df_from sin_ gauss st0 = zip_with (row_at sin_ gauss) dates0 (seq 0 n0).
Proof.
  unfold df_from. rewrite generate_closed_form. reflexivity.
Qed.

Lemma df_dates (st0 : RandomState) :
  map Date_ (df_from sin_ gauss st0) = dates0.
Proof.
  rewrite df_closed_form.
  apply map_zip_with_left; [reflexivity|].
  rewrite length_seq. reflexivity.
Qed.

Lemma df_length (st0 : RandomState) :
  length (df_from sin_ gauss st0) = 310%nat.
Proof.
  rewrite <- (length_map Date_), df_dates. exact n0_value.
Qed.

(** C1 (as amended): the generated frame has 310 rows, not 311: its date
    column is exactly the month ends of the 310 months from January 2000 on,
    the first being 2000-01-31 and the last 2025-10-31. *)
Theorem C1_series_length_310 (st0 : RandomState) :
  let df := df_from sin_ gauss st0 in
  length df = 310%nat
  /\ map Date_ df = month_ends 310 2000 1
  /\ hd_error (map Date_ df) = Some (mkDate 2000 1 31)
  /\ last (map Date_ df) (mkDate 0 0 0) = mkDate 2025 10 31.
Proof.
  cbv zeta. rewrite df_length, df_dates, dates0_month_ends.
  repeat split; vm_compute; reflexivity.
Qed.

End GeneratorFacts.

(** C1 (as stated) fails: the length is not 311 for any sine, any stream of
    deviates and any prior random state. *)
Lemma C1_length_is_not_311 :
  ~ (forall (sin_ : Q -> Q) (gauss : Z -> nat -> Q) (st0 : RandomState),
        length (df_from sin_ gauss st0) = 311%nat).
Proof.
  intros H.
  specialize (H (fun _ => 0) (fun _ _ => 0) (mkRandomState 0 0)).
  rewrite df_length in H. discriminate H.
Qed.

(** ** Rows and columns of the generated frame *)


Lemma df_head (sin_ : Q -> Q) (gauss : Z -> nat -> Q) (st0 : RandomState) :
  hd_error (df_from sin_ gauss st0)
  = Some (row_at sin_ gauss (mkDate 2000 1 31) 0).
Proof.
  rewrite df_closed_form, n0_value, dates0_month_ends. reflexivity.
Qed.

Lemma first_ph_steered (sin_ : Q -> Q) (target : Q) :
  ph_at sin_ (stream_with_first_ph sin_ target) 0 == target.
Proof.
  unfold ph_at, stream_with_first_ph. lra.
Qed.

Lemma mean4_le_100 (a b c d : Q) :
  a <= 100 -> b <= 100 -> c <= 100 -> d <= 100 -> (a + b + c + d) / 4 <= 100.
Proof.
  intros. change ((a + b + c + d) / 4) with ((a + b + c + d) * (1 # 4)). lra.
Qed.

Lemma mean4_le_first (a b c d : Q) :
  b <= 100 -> c <= 100 -> d <= 100 ->
  (a + b + c + d) / 4 <= (a + 300) * (1 # 4).
Proof.
  intros. change ((a + b + c + d) / 4) with ((a + b + c + d) * (1 # 4)). lra.
Qed.

(** ** Claims about the generator *)

(** C4: in every row of the generated frame TDS lies in [150, 600],
    turbidity in [0.5, 8] and dissolved oxygen in [4, 9]; pH has no such
    bound: whatever value is named, some stream of deviates makes the first
    row's pH equal to it. *)
Theorem C4_raw_ranges (sin_ : Q -> Q) (gauss : Z -> nat -> Q)
        (st0 : RandomState) :
  Forall (fun r => 150 <= TDS r <= 600
                   /\ 0.5 <= Turbidity r <= 8
                   /\ 4 <= Dissolved_Oxygen r <= 9)
         (df_from sin_ gauss st0)
  /\ forall target : Q, exists g r,
        hd_error (df_from sin_ g st0) = Some r /\ pH r == target.
Proof.
  split.
  - rewrite df_closed_form. apply Forall_zip_with. intros d i.
    cbn [TDS Turbidity Dissolved_Oxygen row_at].
    unfold tds_at, turbidity_at, do_at.
    repeat split; apply clip1_bounds; lra.
  - intros target.
    exists (stream_with_first_ph sin_ target). eexists. split.
    + apply df_head.
    + cbn [pH row_at]. apply first_ph_steered.
Qed.


(** C6: in every row the stored quality score is the plain mean of the four
    sub-scores of that row's stored readings; the quality column is, entry by
    entry, a quarter of the sum of the four sub-score columns; the TDS,
    turbidity and dissolved-oxygen sub-scores are clipped to [0, 100] on every
    input, the pH sub-score is not (it is -10 at pH 13).  The frame and the
    quality column have 310 entries, and the first quality score is the mean
    of the sub-scores of the first readings. *)
Theorem C6_quality_is_mean (sin_ : Q -> Q) (gauss : Z -> nat -> Q)
        (st0 : RandomState) :
  let loc := fst (generate_locals sin_ gauss st0) in
  Forall (fun r =>
            Quality_Score r
            = (ph_score1 (pH r) + tds_score1 (TDS r)
               + turbidity_score1 (Turbidity r)
               + do_score1 (Dissolved_Oxygen r)) / 4)
         (df_from sin_ gauss st0)
  /\ map Quality_Score (df_from sin_ gauss st0) = l_quality_score loc
  /\ l_quality_score loc
     = map (fun i => (nth i (l_ph_score loc) 0
                      + nth i (l_tds_score loc) 0
                      + nth i (l_turbidity_score loc) 0
                      + nth i (l_do_score loc) 0) / 4)
           (seq 0 (l_n loc))
  /\ (forall x, 0 <= tds_score1 x <= 100
                /\ 0 <= turbidity_score1 x <= 100
                /\ 0 <= do_score1 x <= 100)
  /\ ph_score1 13 == -10
  /\ length (df_from sin_ gauss st0) = 310%nat
  /\ length (l_quality_score loc) = 310%nat
  /\ l_n loc = 310%nat
  /\ hd_error (map Quality_Score (df_from sin_ gauss st0))
     = Some ((ph_score1 (ph_at sin_ gauss 0)
              + tds_score1 (tds_at sin_ gauss 0)
              + turbidity_score1 (turbidity_at sin_ gauss 0)
              + do_score1 (do_at sin_ gauss 0)) / 4).
Proof.
  cbv zeta. rewrite locals_closed_form.
  cbn [l_n l_ph_score l_tds_score l_turbidity_score l_do_score
       l_quality_score].
  split; [|split; [|split; [|split; [|split; [|split; [|split; [|split]]]]]]];
    [ | | | | | apply df_length
      | rewrite length_map, length_seq; exact n0_value
      | exact n0_value
      | rewrite df_closed_form, n0_value, dates0_month_ends; reflexivity ].
  - rewrite df_closed_form. apply Forall_zip_with. intros d i. reflexivity.
  - rewrite df_closed_form. apply map_zip_with_right; [reflexivity|].
    rewrite length_seq. reflexivity.
  - apply map_seq_ext. intros i Hi.
    rewrite !nth_map_seq by assumption. reflexivity.
  - intros x. split; [|split].
    + apply tds_score1_range.
    + apply turbidity_score1_range.
    + apply do_score1_range.
  - vm_compute. reflexivity.
Qed.

(** C10: every row's quality score is at most 100, whatever the deviates
    and the sine values are; there is no lower bound: for any number named,
    some stream of deviates puts the first row's quality score below it. *)
Theorem C10_quality_at_most_100 (sin_ : Q -> Q) (gauss : Z -> nat -> Q)
        (st0 : RandomState) :
  Forall (fun r => Quality_Score r <= 100) (df_from sin_ gauss st0)
  /\ forall bound : Q, exists g r,
        hd_error (df_from sin_ g st0) = Some r /\ Quality_Score r < bound.
Proof.
  split.
  - rewrite df_closed_form. apply Forall_zip_with. intros d i.
    cbn [Quality_Score row_at]. unfold quality_at.
    apply mean4_le_100.
    + apply ph_score1_le_100.
    + apply tds_score1_range.
    + apply turbidity_score1_range.
    + apply do_score1_range.
  - intros bound.
    set (t := 28.5 - bound * (1 # 5)).
    exists (stream_with_first_ph sin_ t). eexists. split.
    + apply df_head.
    + cbn [Quality_Score row_at]. unfold quality_at.
      set (g := stream_with_first_ph sin_ t).
      pose proof (mean4_le_first (ph_score1 (ph_at sin_ g 0))
                    (tds_score1 (tds_at sin_ g 0))
                    (turbidity_score1 (turbidity_at sin_ g 0))
                    (do_score1 (do_at sin_ g 0))
                    (proj2 (tds_score1_range _))
                    (proj2 (turbidity_score1_range _))
                    (proj2 (do_score1_range _))) as Hm.
      pose proof (ph_score1_upper (ph_at sin_ g 0)) as Hu.
      pose proof (first_ph_steered sin_ t) as Hs. fold g in Hs.
      unfold t in Hs. lra.
Qed.

(** C8: the generator's result does not depend on the random state it is
    entered with: it reseeds with 42, and two runs return the same frame and
    leave the same state, 1240 deviates into the seed-42 stream.  The draws
    are taken in column order: entry [i] of the pH column uses deviate [i],
    of the TDS column deviate [310 + i], of the turbidity column deviate
    [620 + i] and of the dissolved-oxygen column deviate [930 + i]. *)
Theorem C8_deterministic_draw_order (sin_ : Q -> Q) (gauss : Z -> nat -> Q)
        (st1 st2 : RandomState) :
  generate_water_quality_data sin_ gauss st1
  = generate_water_quality_data sin_ gauss st2
  /\ snd (generate_water_quality_data sin_ gauss st1)
     = mkRandomState 42 1240
  /\ let loc := fst (generate_locals sin_ gauss st1) in
     l_ph loc
     = map (fun i => 7.5 + (0 + 0.3 * gauss 42%Z i)
                     + 0.2 * sin_ (idx i * 0.1))
           (seq 0 310)
     /\ l_tds loc
        = map (fun i => clip1 (250 + (0 + 50 * gauss 42%Z (310 + i)%nat)
                               + 30 * sin_ (idx i * 0.15)) 150 600)
              (seq 0 310)
     /\ l_turbidity loc
        = map (fun i => clip1 (2 + (0 + 1 * gauss 42%Z (620 + i)%nat)
                               + 1.5 * sin_ (idx i * 0.2)) 0.5 8)
              (seq 0 310)
     /\ l_do loc
        = map (fun i => clip1 (7 + (0 + 0.8 * gauss 42%Z (930 + i)%nat)
                               - 0.5 * sin_ (idx i * 0.12)) 4 9)
              (seq 0 310).
Proof.
  cbv zeta. rewrite !generate_closed_form, locals_closed_form.
  cbn [snd l_ph l_tds l_turbidity l_do].
  unfold ph_at, tds_at, turbidity_at, do_at.
  rewrite !n0_value.
  split; [|split; [|split; [|split; [|split]]]]; reflexivity.
Qed.

(** ** Boolean-mask selection *)

Lemma filtered_df_filter (df : list Row) (yr : Z * Z) :
  filtered_df df yr = filter (in_year_range yr) df.
Proof.
  unfold filtered_df, mask.
  induction df as [|r df IH]; simpl; [reflexivity|].
  rewrite IH. reflexivity.
Qed.

Lemma year_in_iff (yr : Z * Z) (d : Date) :
  year_in yr d = true <-> (fst yr <= year d <= snd yr)%Z.
Proof.
  unfold year_in. rewrite andb_true_iff, Z.geb_leb, !Z.leb_le. tauto.
Qed.

Lemma filter_none {A : Type} (p : A -> bool) (l : list A) :
  Forall (fun a => p a = false) l -> filter p l = [].
Proof.
  induction 1 as [|a l Ha _ IH]; simpl; [reflexivity|].
  now rewrite Ha.
Qed.

Lemma filter_all {A : Type} (p : A -> bool) (l : list A) :
  Forall (fun a => p a = true) l -> filter p l = l.
Proof.
  induction 1 as [|a l Ha _ IH]; simpl; [reflexivity|].
  now rewrite Ha, IH.
Qed.

Lemma map_filter_comm {A B : Type} (f : A -> B) (p : B -> bool)
      (l : list A) :
  map f (filter (fun a => p (f a)) l) = filter p (map f l).
Proof.
  induction l as [|a l IH]; simpl; [reflexivity|].
  destruct (p (f a)); simpl; now rewrite IH.
Qed.

Lemma nondecreasing_tail (a : Z) (l : list Z) :
  nondecreasing (a :: l) = true -> nondecreasing l = true.
Proof.
  destruct l as [|b l]; [reflexivity|].
  cbn [nondecreasing]. intros H. apply andb_true_iff in H. apply H.
Qed.

Lemma nondecreasing_head (a : Z) (l : list Z) :
  nondecreasing (a :: l) = true -> Forall (fun b => (a <= b)%Z) l.
Proof.
  revert a. induction l as [|b l IH]; intros a H; constructor.
  - cbn [nondecreasing] in H. apply andb_true_iff in H.
    apply Z.leb_le. apply H.
  - pose proof H as H'. cbn [nondecreasing] in H'.
    apply andb_true_iff in H'. destruct H' as [Hab Hbl].
    apply Z.leb_le in Hab.
    specialize (IH b Hbl).
    eapply Forall_impl; [|exact IH]. cbn beta. intros c Hc. lia.
Qed.

Section Contiguous.

Variable A : Type.
Variable key : A -> Z.
Variables lo hi : Z.

Let p (a : A) : bool := ((key a >=? lo) && (key a <=? hi))%Z.

(** On a list whose keys never decrease and are all at least [lo], the
    selected elements form a prefix. *)
Lemma selected_prefix (l : list A) :
  nondecreasing (map key l) = true ->
  Forall (fun a => (lo <= key a)%Z) l ->
  exists post, l = filter p l ++ post /\ Forall (fun a => p a = false) post.
Proof.
  induction l as [|a l IH]; intros Hs Hlo.
  - exists []. split; [reflexivity | constructor].
  - cbn [map] in Hs.
    pose proof (nondecreasing_head _ _ Hs) as Hhd.
    pose proof (nondecreasing_tail _ _ Hs) as Htl.
    inversion Hlo as [|? ? Ha Hl]; subst.
    destruct (Z.leb_spec (key a) hi) as [Hle|Hgt].
    + destruct (IH Htl Hl) as (post & Heq & Hpost).
      exists post. split; [|exact Hpost].
      cbn [filter]. unfold p at 1.
      replace (key a >=? lo)%Z with true
        by (symmetry; rewrite Z.geb_leb; apply Z.leb_le; exact Ha).
      replace (key a <=? hi)%Z with true
        by (symmetry; apply Z.leb_le; exact Hle).
      cbn [andb app]. f_equal. exact Heq.
    + assert (Hall : Forall (fun x => p x = false) (a :: l)).
      { constructor.
        - unfold p. apply andb_false_iff. right. apply Z.leb_gt. exact Hgt.
        - apply -> Forall_map in Hhd.
          eapply Forall_impl; [|exact Hhd]. cbn beta. intros x Hx.
          unfold p. apply andb_false_iff. right. apply Z.leb_gt. lia. }
      exists (a :: l). rewrite (filter_none _ _ Hall).
      split; [reflexivity | exact Hall].
Qed.

(** On a list whose keys never decrease, the selected elements form one
    block. *)
Lemma selected_block (l : list A) :
  nondecreasing (map key l) = true ->
  exists pre post,
    l = pre ++ filter p l ++ post
    /\ Forall (fun a => p a = false) pre
    /\ Forall (fun a => p a = false) post.
Proof.
  induction l as [|a l IH]; intros Hs.
  - exists [], []. repeat split; constructor.
  - cbn [map] in Hs.
    pose proof (nondecreasing_head _ _ Hs) as Hhd.
    pose proof (nondecreasing_tail _ _ Hs) as Htl.
    destruct (p a) eqn:Hpa.
    + assert (Ha : (lo <= key a)%Z).
      { unfold p in Hpa. apply andb_true_iff in Hpa.
        destruct Hpa as [Hge _]. rewrite Z.geb_leb in Hge.
        apply Z.leb_le. exact Hge. }
      assert (Hlo : Forall (fun x => (lo <= key x)%Z) (a :: l)).
      { constructor; [exact Ha|].
        apply -> Forall_map in Hhd.
        eapply Forall_impl; [|exact Hhd]. cbn beta. intros x Hx. lia. }
      destruct (selected_prefix (a :: l) Hs Hlo) as (post & Heq & Hpost).
      exists [], post. repeat split; [exact Heq | constructor | exact Hpost].
    + destruct (IH Htl) as (pre & post & Heq & Hpre & Hpost).
      exists (a :: pre), post. cbn [filter]. rewrite Hpa.
      repeat split; [|constructor; assumption|exact Hpost].
      cbn [app]. f_equal. exact Heq.
Qed.

End Contiguous.

(** ** The years of the generated frame *)

Lemma dates0_years_sorted : nondecreasing (map year dates0) = true.
Proof. vm_compute. reflexivity. Qed.

Lemma dates0_years_domain :
  forallb (fun d => year_in (2000, 2025)%Z d) dates0 = true.
Proof. vm_compute. reflexivity. Qed.

Lemma dates0_years_all :
  forallb (fun y => existsb (fun d => (year d =? y)%Z) dates0)
          (map Z.of_nat (seq 2000 26)) = true.
Proof. vm_compute. reflexivity. Qed.

Section FrameYears.

Variable sin_ : Q -> Q.
Variable gauss : Z -> nat -> Q.
Variable st0 : RandomState.

Let df : list Row := df_from sin_ gauss st0.

Lemma df_years_sorted :
  nondecreasing (map (fun r => year (Date_ r)) df) = true.
Proof.
  unfold df. rewrite <- (map_map Date_ year), df_dates.
  exact dates0_years_sorted.
Qed.

Lemma df_years_domain :
  Forall (fun r => (2000 <= year (Date_ r) <= 2025)%Z) df.
Proof.
  pose proof dates0_years_domain as H.
  rewrite forallb_forall in H.
  apply Forall_forall. intros r Hr.
  apply (year_in_iff (2000, 2025)%Z). apply H.
  unfold df in Hr. rewrite <- (df_dates sin_ gauss st0).
  apply in_map. exact Hr.
Qed.

Lemma df_every_year (y : Z) :
  (2000 <= y <= 2025)%Z -> exists r, In r df /\ year (Date_ r) = y.
Proof.
  intros Hy.
  pose proof dates0_years_all as H.
  rewrite forallb_forall in H.
  assert (Hin : In y (map Z.of_nat (seq 2000 26))).
  { replace y with (Z.of_nat (Z.to_nat y)) by lia.
    apply in_map. apply in_seq. lia. }
  specialize (H y Hin). apply existsb_exists in H.
  destruct H as (d & Hd & Hyd). apply Z.eqb_eq in Hyd.
  rewrite <- (df_dates sin_ gauss st0) in Hd.
  apply in_map_iff in Hd. destruct Hd as (r & Hr & Hrin).
  exists r. split; [exact Hrin|]. now rewrite Hr.
Qed.

(** The selection is empty exactly when no year of 2000..2025 lies between
    the bounds. *)
Lemma filtered_empty_iff (s e : Z) :
  filtered_df df (s, e) = [] <-> (e < s \/ e < 2000 \/ 2025 < s)%Z.
Proof.
  rewrite filtered_df_filter. split.
  - intros Hnil.
    destruct (Z_lt_le_dec e s) as [|Hse]; [now left|].
    destruct (Z_lt_le_dec e 2000) as [|He]; [now right; left|].
    destruct (Z_lt_le_dec 2025 s) as [|Hs]; [now right; right|].
    exfalso.
    destruct (df_every_year (Z.max s 2000)) as (r & Hr & Hy); [lia|].
    assert (Hin : In r (filter (in_year_range (s, e)) df)).
    { apply filter_In. split; [exact Hr|].
      apply year_in_iff. cbn [fst snd]. lia. }
    rewrite Hnil in Hin. exact Hin.
  - intros Hout. apply filter_none.
    eapply Forall_impl; [|exact df_years_domain]. cbn beta.
    intros r Hr.
    destruct (in_year_range (s, e) r) eqn:E; [|reflexivity].
    apply year_in_iff in E. cbn [fst snd] in E. lia.
Qed.

End FrameYears.

(** ** The latest reading *)

Lemma nth_error_last {A : Type} (l : list A) (d : A) :
  l <> [] -> nth_error l (length l - 1) = Some (last l d).
Proof.
  induction l as [|a l IH]; [congruence|]. intros _.
  destruct l as [|b l]; [reflexivity|].
  specialize (IH ltac:(discriminate)).
  cbn [length] in *.
  replace (S (S (length l)) - 1)%nat with (S (S (length l) - 1)) by lia.
  cbn [nth_error]. rewrite IH. reflexivity.
Qed.


Lemma latest_nonempty (l : list Row) (d : Row) :
  l <> [] -> latest l = inr (last l d).
Proof.
  intros Hl. unfold latest, iloc.
  assert (Hlen : (0 < length l)%nat).
  { destruct l; [congruence | cbn; lia]. }
  replace (-1 <? 0)%Z with true by reflexivity.
  replace ((-1 + Z.of_nat (length l) <? 0)
           || (Z.of_nat (length l) <=? -1 + Z.of_nat (length l)))%Z
    with false
    by (symmetry; apply orb_false_iff; split;
        [apply Z.ltb_ge | apply Z.leb_gt]; lia).
  replace (Z.to_nat (-1 + Z.of_nat (length l))) with (length l - 1)%nat
    by lia.
  rewrite (nth_error_last l d Hl). reflexivity.
Qed.

(** ** Claims about the filter, the latest reading and the labels *)

(** C3: for every inclusive pair of years the filter returns one contiguous
    block of the frame, in frame order, made of exactly the rows whose year
    lies between the bounds; with (2000, 2025) it returns the whole frame and
    with (2010, 2010) the rows of the twelve month ends of 2010. *)
Theorem C3_filter_contiguous_block (sin_ : Q -> Q) (gauss : Z -> nat -> Q)
        (st0 : RandomState) (start_year end_year : Z) :
  let df := df_from sin_ gauss st0 in
  let sel := filtered_df df (start_year, end_year) in
  let inside r := (start_year <= year (Date_ r) <= end_year)%Z in
  (exists pre post,
      df = pre ++ sel ++ post
      /\ Forall (fun r => ~ inside r) pre
      /\ Forall (fun r => ~ inside r) post)
  /\ Forall inside sel
  /\ (forall r, In r sel <-> In r df /\ inside r)
  /\ filtered_df df (2000, 2025)%Z = df
  /\ map Date_ (filtered_df df (2010, 2010)%Z) = month_ends 12 2010 1.
Proof.
  cbv zeta. rewrite !filtered_df_filter.
  assert (Hnot : forall l : list Row,
             Forall (fun r => in_year_range (start_year, end_year) r = false) l
             -> Forall (fun r => ~ (start_year <= year (Date_ r) <= end_year)%Z)
                       l).
  { intros l Hl. eapply Forall_impl; [|exact Hl]. cbn beta.
    intros r Hr Hin.
    apply (year_in_iff (start_year, end_year)) in Hin.
    unfold in_year_range in Hr. congruence. }
  split; [|split; [|split; [|split]]].
  - destruct (selected_block Row (fun r => year (Date_ r))
                start_year end_year _ (df_years_sorted sin_ gauss st0))
      as (pre & post & Heq & Hpre & Hpost).
    exists pre, post. split; [exact Heq|]. split; apply Hnot; assumption.
  - apply Forall_forall. intros r Hr. apply filter_In in Hr.
    apply (year_in_iff (start_year, end_year)). apply Hr.
  - intros r. rewrite filter_In.
    unfold in_year_range.
    rewrite (year_in_iff (start_year, end_year)). reflexivity.
  - apply filter_all.
    eapply Forall_impl; [|exact (df_years_domain sin_ gauss st0)].
    cbn beta. intros r Hr. apply (year_in_iff (2000, 2025)%Z). exact Hr.
  - unfold in_year_range.
    rewrite (map_filter_comm Date_ (year_in (2010, 2010)%Z)), df_dates.
    vm_compute. reflexivity.
Qed.

Lemma last_default {A : Type} (l : list A) (d d' : A) :
  l <> [] -> last l d = last l d'.
Proof.
  intros H. induction l as [|a l IH]; [congruence|].
  destruct l as [|b l]; [reflexivity|].
  cbn [last] in *. apply IH. discriminate.
Qed.




Lemma year_range_in_domain (ui : option (Z * Z)) :
  (2000 <= fst (year_range ui) <= snd (year_range ui)
   /\ snd (year_range ui) <= 2025)%Z.
Proof.
  unfold year_range, slider.
  destruct ui as [[lo hi]|]; [|cbn; lia].
  destruct (offered 2000 2025 (Some (lo, hi))) eqn:E; [|cbn; lia].
  cbn [offered] in E.
  apply andb_true_iff in E. destruct E as [E H3].
  apply andb_true_iff in E. destruct E as [H1 H2].
  apply Z.leb_le in H1, H2, H3. cbn [fst snd]. lia.
Qed.






(** C7: the pH label is "Optimal" exactly for 6.5 <= ph <= 8.5, so 8.5 is
    "Optimal" and 8.50001 is "Outside Range"; the quality label is
    "Excellent" exactly above 80, "Good" exactly for 60 < score <= 80 and
    "Fair" otherwise, so 80 is "Good" and 80.1 is "Excellent". *)
Theorem C7_classification_boundaries :
  (forall ph, ph_delta ph = "Optimal"%string <-> 6.5 <= ph <= 8.5)
  /\ (forall ph, ph_delta ph = "Outside Range"%string
                 <-> ~ (6.5 <= ph <= 8.5))
  /\ ph_delta 8.5 = "Optimal"%string
  /\ ph_delta 8.50001 = "Outside Range"%string
  /\ (forall score, status score = "Excellent"%string <-> 80 < score)
  /\ (forall score, status score = "Good"%string <-> 60 < score <= 80)
  /\ (forall score, status score = "Fair"%string <-> score <= 60)
  /\ status 80 = "Good"%string
  /\ status 80.1 = "Excellent"%string.
Proof.
  assert (Hph : forall ph,
             Qle_bool 6.5 ph && Qle_bool ph 8.5 = true <-> 6.5 <= ph <= 8.5).
  { intros ph. rewrite andb_true_iff, !Qle_bool_iff. reflexivity. }
  split; [|split; [|split; [|split; [|split; [|split; [|split; [|split]]]]]]].
  - intros ph. rewrite <- Hph. unfold ph_delta.
    destruct (Qle_bool 6.5 ph && Qle_bool ph 8.5);
      split; intros H; try reflexivity; discriminate H.
  - intros ph. rewrite <- Hph. unfold ph_delta.
    destruct (Qle_bool 6.5 ph && Qle_bool ph 8.5);
      split; intros H; try reflexivity; try discriminate H.
    + exfalso. apply H. reflexivity.
    + discriminate.
  - reflexivity.
  - reflexivity.
  - intros q. rewrite <- Qlt_bool_iff. unfold status.
    destruct (Qlt_bool 80 q); [|destruct (Qlt_bool 60 q)];
      split; intros H; try reflexivity; discriminate H.
  - intros q. unfold status.
    destruct (Qlt_bool 80 q) eqn:E1; [|destruct (Qlt_bool 60 q) eqn:E2].
    + apply Qlt_bool_iff in E1. split; [discriminate | intros H; lra].
    + apply Qlt_bool_iff in E2.
      assert (~ 80 < q) by (rewrite <- Qlt_bool_iff; congruence).
      split; [intros _; lra | reflexivity].
    + assert (~ 60 < q) by (rewrite <- Qlt_bool_iff; congruence).
      split; [discriminate | intros H'; lra].
  - intros q. unfold status.
    destruct (Qlt_bool 80 q) eqn:E1; [|destruct (Qlt_bool 60 q) eqn:E2].
    + apply Qlt_bool_iff in E1. split; [discriminate | intros H; lra].
    + apply Qlt_bool_iff in E2. split; [discriminate | intros H; lra].
    + assert (~ 60 < q) by (rewrite <- Qlt_bool_iff; congruence).
      split; [intros _; lra | reflexivity].
  - reflexivity.
  - reflexivity.
Qed.

(** ** Concrete runs *)



(** * Further properties of the script *)

(** ** The mask and repeated selection *)

Lemma filter_filter_and {A : Type} (p q : A -> bool) (l : list A) :
  filter q (filter p l) = filter (fun a => p a && q a) l.
Proof.
  induction l as [|a l IH]; simpl; [reflexivity|].
  destruct (p a); simpl; [|exact IH].
  destruct (q a); [f_equal|]; exact IH.
Qed.

Lemma Forall_filter_keep {A : Type} (P : A -> Prop) (p : A -> bool)
      (l : list A) :
  Forall P l -> Forall P (filter p l).
Proof.
  induction 1 as [|a l Ha _ IH]; simpl; [constructor|].
  destruct (p a); [constructor|]; assumption.
Qed.

Lemma count_true_boolean_index {A : Type} (rows : list A) (m : list bool) :
  length rows = length m ->
  length (boolean_index rows m) = length (filter (fun b => b) m).
Proof.
  revert m; induction rows as [|r rows IH]; intros [|b m] H; simpl in *;
    try reflexivity; try discriminate.
  injection H as H. destruct b; simpl; [f_equal|]; apply IH; exact H.
Qed.

(** X1: the mask has one boolean per row of the frame it is computed from,
    and the selection has as many rows as the mask has [True] entries, never
    more than the frame. *)
Theorem X1_mask_shape (df : list Row) (year_range : Z * Z) :
  length (mask df year_range) = length df
  /\ length (filtered_df df year_range)
     = length (filter (fun b => b) (mask df year_range))
  /\ (length (filtered_df df year_range) <= length df)%nat.
Proof.
  assert (Hlen : length (mask df year_range) = length df).
  { unfold mask. induction df as [|r df IH]; simpl; [reflexivity|].
    f_equal. exact IH. }
  split; [exact Hlen|]. split.
  - unfold filtered_df. apply count_true_boolean_index. now rewrite Hlen.
  - rewrite filtered_df_filter. apply filter_length_le.
Qed.

(** X2: selecting twice is selecting once with the intersection of the two
    year ranges, on any frame; so the order of two selections does not
    matter and repeating a selection changes nothing. *)
Theorem X2_filter_twice_is_intersection (df : list Row) (a b c d : Z) :
  filtered_df (filtered_df df (a, b)) (c, d)
  = filtered_df df (Z.max a c, Z.min b d)
  /\ filtered_df (filtered_df df (a, b)) (c, d)
     = filtered_df (filtered_df df (c, d)) (a, b)
  /\ filtered_df (filtered_df df (a, b)) (a, b) = filtered_df df (a, b).
Proof.
  assert (H : forall a b c d,
             filtered_df (filtered_df df (a, b)) (c, d)
             = filtered_df df (Z.max a c, Z.min b d)).
  { intros a' b' c' d'. rewrite !filtered_df_filter, filter_filter_and.
    apply filter_ext. intros r.
    unfold in_year_range, year_in. cbn [fst snd].
    rewrite !Z.geb_leb.
    destruct (Z.leb_spec a' (year (Date_ r)));
      destruct (Z.leb_spec c' (year (Date_ r)));
      destruct (Z.leb_spec (year (Date_ r)) b');
      destruct (Z.leb_spec (year (Date_ r)) d');
      destruct (Z.leb_spec (Z.max a' c') (year (Date_ r)));
      destruct (Z.leb_spec (year (Date_ r)) (Z.min b' d'));
      try reflexivity; exfalso; lia. }
  split; [apply H|]. split.
  - rewrite !H. f_equal. f_equal; lia.
  - rewrite H. f_equal. f_equal; lia.
Qed.

(** X3: reading the latest row of any frame either raises IndexError, which
    happens exactly on the empty frame, or returns the frame's last row. *)
Theorem X3_latest_total (frame : list Row) (d : Row) :
  latest frame
  = match frame with
    | [] => inl "IndexError"%string
    | _ :: _ => inr (last frame d)
    end.
Proof.
  destruct frame as [|r l]; [reflexivity|].
  apply latest_nonempty. discriminate.
Qed.

(** ** Order of the rows *)

Lemma strictly_increasing_sorted (l : list Date) :
  strictly_increasing l = true ->
  StronglySorted (fun a b => date_ltb a b = true) l.
Proof.
  induction l as [|a l IH]; intros H; constructor;
    cbn [strictly_increasing] in H; apply andb_true_iff in H.
  - apply IH. apply H.
  - apply Forall_forall. apply forallb_forall. apply H.
Qed.

Lemma StronglySorted_filter {A : Type} (R : A -> A -> Prop) (p : A -> bool)
      (l : list A) :
  StronglySorted R l -> StronglySorted R (filter p l).
Proof.
  induction 1 as [|a l Hl IH Ha]; simpl; [constructor|].
  destruct (p a); [|exact IH].
  constructor; [exact IH|]. apply Forall_filter_keep. exact Ha.
Qed.

Lemma dates0_strictly_increasing : strictly_increasing dates0 = true.
Proof. vm_compute. reflexivity. Qed.

Lemma filtered_dates (sin_ : Q -> Q) (gauss : Z -> nat -> Q)
      (st0 : RandomState) (yr : Z * Z) :
  map Date_ (filtered_df (df_from sin_ gauss st0) yr)
  = filter (year_in yr) dates0.
Proof.
  rewrite filtered_df_filter. unfold in_year_range.
  rewrite (map_filter_comm Date_ (year_in yr)), df_dates. reflexivity.
Qed.

(** X4: whatever the year range, the dates of the selected rows are
    strictly increasing: no month appears twice and the rows stay in
    chronological order. *)
Theorem X4_selection_dates_strictly_increasing
        (sin_ : Q -> Q) (gauss : Z -> nat -> Q) (st0 : RandomState)
        (year_range : Z * Z) :
  StronglySorted (fun a b => date_ltb a b = true)
    (map Date_ (filtered_df (df_from sin_ gauss st0) year_range)).
Proof.
  rewrite filtered_dates. apply StronglySorted_filter.
  apply strictly_increasing_sorted. exact dates0_strictly_increasing.
Qed.

(** ** Splitting a year range *)

Lemma last_app_nonempty {A : Type} (l1 l2 : list A) (d : A) :
  l2 <> [] -> last (l1 ++ l2) d = last l2 d.
Proof.
  intros H. induction l1 as [|a l1 IH]; [reflexivity|].
  cbn [app]. destruct (l1 ++ l2) as [|b t] eqn:E.
  - apply app_eq_nil in E. destruct E. congruence.
  - cbn [last]. cbn [last] in IH. exact IH.
Qed.

Section Split.

Variable A : Type.
Variable key : A -> Z.

Let sel (lo hi : Z) (a : A) : bool := ((key a >=? lo) && (key a <=? hi))%Z.

Lemma sel_true (lo hi : Z) (a : A) :
  sel lo hi a = true <-> (lo <= key a <= hi)%Z.
Proof.
  unfold sel. rewrite andb_true_iff, Z.geb_leb, !Z.leb_le. tauto.
Qed.

Lemma sel_false (lo hi : Z) (a : A) :
  sel lo hi a = false <-> (key a < lo \/ hi < key a)%Z.
Proof.
  unfold sel. rewrite andb_false_iff, Z.geb_leb, !Z.leb_gt. tauto.
Qed.

Lemma split_selection (l : list A) (a b c : Z) :
  nondecreasing (map key l) = true ->
  (a <= b + 1)%Z -> (b <= c)%Z ->
  filter (sel a c) l = filter (sel a b) l ++ filter (sel (b + 1) c) l.
Proof.
  intros Hs Hab Hbc.
  induction l as [|x l IH]; [reflexivity|].
  cbn [map] in Hs.
  pose proof (nondecreasing_head _ _ Hs) as Hhd.
  specialize (IH (nondecreasing_tail _ _ Hs)).
  cbn [filter].
  destruct (sel a b x) eqn:E1.
  - apply sel_true in E1.
    replace (sel a c x) with true by (symmetry; apply sel_true; lia).
    replace (sel (b + 1) c x) with false by (symmetry; apply sel_false; lia).
    cbn [app]. f_equal. exact IH.
  - apply sel_false in E1.
    destruct (sel (b + 1) c x) eqn:E2.
    + apply sel_true in E2.
      replace (sel a c x) with true by (symmetry; apply sel_true; lia).
      assert (Hnone : filter (sel a b) l = []).
      { apply filter_none. apply -> Forall_map in Hhd.
        eapply Forall_impl; [|exact Hhd]. cbn beta. intros y Hy.
        apply sel_false. lia. }
      rewrite Hnone in *. cbn [app] in *. f_equal. exact IH.
    + apply sel_false in E2.
      replace (sel a c x) with false by (symmetry; apply sel_false; lia).
      exact IH.
Qed.

(** On a list whose keys never decrease, the last selected element does not
    depend on the lower bound, as long as something is selected. *)
Lemma last_selected (l : list A) (lo lo' hi : Z) (d : A) :
  nondecreasing (map key l) = true ->
  (lo' <= lo)%Z ->
  filter (sel lo hi) l <> [] ->
  last (filter (sel lo hi) l) d = last (filter (sel lo' hi) l) d.
Proof.
  intros Hs Hlo Hne.
  assert (Hlohi : (lo <= hi)%Z).
  { destruct (Z_lt_le_dec hi lo) as [Hhi|]; [|assumption].
    exfalso. apply Hne. apply filter_none.
    apply Forall_forall. intros x _. apply sel_false. lia. }
  destruct (Z_lt_le_dec lo (lo' + 1)) as [Heq|Hlt].
  - replace lo' with lo by lia. reflexivity.
  - rewrite (split_selection l lo' (lo - 1) hi Hs) by lia.
    replace (lo - 1 + 1)%Z with lo by lia.
    symmetry. apply last_app_nonempty. exact Hne.
Qed.

End Split.

(** X5: on the generated frame a year range can be cut at any year: the
    selection for [a..c] is the selection for [a..b] followed by the
    selection for [b+1..c]. *)
Theorem X5_selection_splits_at_a_year
        (sin_ : Q -> Q) (gauss : Z -> nat -> Q) (st0 : RandomState)
        (a b c : Z) :
  (a <= b + 1)%Z -> (b <= c)%Z ->
  filtered_df (df_from sin_ gauss st0) (a, c)
  = filtered_df (df_from sin_ gauss st0) (a, b)
    ++ filtered_df (df_from sin_ gauss st0) (b + 1, c)%Z.
Proof.
  intros Hab Hbc. rewrite !filtered_df_filter.
  exact (split_selection Row (fun r => year (Date_ r))
           (df_from sin_ gauss st0) a b c
           (df_years_sorted sin_ gauss st0) Hab Hbc).
Qed.

(** ** Every pair the slider offers *)

Lemma in_domain_years (y : Z) : (2000 <= y <= 2025)%Z -> In y domain_years.
Proof.
  intros Hy. unfold domain_years.
  replace y with (Z.of_nat (Z.to_nat y)) by lia.
  apply in_map. apply in_seq. lia.
Qed.

Lemma domain_pairs_check (P : Z -> Z -> bool) :
  forallb (fun lo => forallb (fun hi => P lo hi) domain_years) domain_years
  = true ->
  forall lo hi, (2000 <= lo <= 2025)%Z -> (2000 <= hi <= 2025)%Z ->
                P lo hi = true.
Proof.
  intros H lo hi Hlo Hhi.
  rewrite forallb_forall in H. specialize (H lo (in_domain_years lo Hlo)).
  rewrite forallb_forall in H. exact (H hi (in_domain_years hi Hhi)).
Qed.

Lemma offered_bounds (ui : option (Z * Z)) :
  offered 2000 2025 ui = true ->
  (2000 <= fst (year_range ui) <= snd (year_range ui)
   /\ snd (year_range ui) <= 2025)%Z.
Proof.
  intros _. exact (year_range_in_domain ui).
Qed.

Lemma date_eqb_eq (a b : Date) : date_eqb a b = true -> a = b.
Proof.
  destruct a as [ya ma da], b as [yb mb db]. unfold date_eqb. cbn [year month day].
  intros H. apply andb_true_iff in H. destruct H as [H H3].
  apply andb_true_iff in H. destruct H as [H1 H2].
  apply Z.eqb_eq in H1, H2, H3. congruence.
Qed.

Lemma last_map {A B : Type} (f : A -> B) (l : list A) (d : A) :
  last (map f l) (f d) = f (last l d).
Proof.
  induction l as [|a l IH]; [reflexivity|].
  destruct l as [|b l]; [reflexivity|].
  cbn [map last] in *. exact IH.
Qed.

Lemma selection_sizes :
  forallb (fun lo => forallb (fun hi =>
     negb (lo <=? hi)%Z
     || (Z.of_nat (length (filter (year_in (lo, hi)) dates0))
         =? 12 * (hi - lo + 1) - (if hi =? 2025 then 2 else 0))%Z)
     domain_years) domain_years = true.
Proof. vm_compute. reflexivity. Qed.

Lemma selection_last_dates :
  forallb (fun lo => forallb (fun hi =>
     negb (lo <=? hi)%Z
     || date_eqb (last (filter (year_in (lo, hi)) dates0) (mkDate 0 0 0))
                 (last_month_end hi))
     domain_years) domain_years = true.
Proof. vm_compute. reflexivity. Qed.

(** X6: for every pair of years the slider offers, the selection holds
    twelve rows for each year from the lower to the upper bound, except that
    2025 contributes ten. *)
Theorem X6_selection_size
        (sin_ : Q -> Q) (gauss : Z -> nat -> Q) (st0 : RandomState)
        (ui : option (Z * Z)) :
  offered 2000 2025 ui = true ->
  let lo := fst (year_range ui) in
  let hi := snd (year_range ui) in
  Z.of_nat (length (filtered_df (df_from sin_ gauss st0) (year_range ui)))
  = (12 * (hi - lo + 1) - (if hi =? 2025 then 2 else 0))%Z.
Proof.
  intros Hui. cbv zeta.
  pose proof (offered_bounds ui Hui) as Hb.
  destruct (year_range ui) as [lo hi]. cbn [fst snd] in *.
  rewrite <- (length_map Date_), filtered_dates.
  pose proof (domain_pairs_check _ selection_sizes lo hi
                ltac:(lia) ltac:(lia)) as H.
  cbv beta in H. apply orb_true_iff in H. destruct H as [H|H].
  - apply negb_true_iff, Z.leb_gt in H. lia.
  - apply Z.eqb_eq in H. exact H.
Qed.

(** X7: for every pair of years the slider offers, the latest reading
    exists, is dated at the last month end of the upper year (31 December,
    or 31 October for 2025), and is the same whatever the lower bound
    is. *)
Theorem X7_latest_depends_on_upper_bound
        (sin_ : Q -> Q) (gauss : Z -> nat -> Q) (st0 : RandomState)
        (ui : option (Z * Z)) :
  offered 2000 2025 ui = true ->
  let df := df_from sin_ gauss st0 in
  let hi := snd (year_range ui) in
  exists r,
    latest (filtered_df df (year_range ui)) = inr r
    /\ Date_ r = last_month_end hi
    /\ latest (filtered_df df (2000, hi)%Z) = inr r.
Proof.
  intros Hui. cbv zeta.
  pose proof (offered_bounds ui Hui) as Hb.
  destruct (year_range ui) as [lo hi]. cbn [fst snd] in *.
  assert (Hne : filtered_df (df_from sin_ gauss st0) (lo, hi) <> []).
  { intros Hnil. apply filtered_empty_iff in Hnil. lia. }
  assert (Hne' : filtered_df (df_from sin_ gauss st0) (2000, hi)%Z <> []).
  { intros Hnil. apply filtered_empty_iff in Hnil. lia. }
  destruct (filtered_df (df_from sin_ gauss st0) (lo, hi)) as [|r0 t] eqn:E;
    [congruence|].
  exists (last (r0 :: t) r0).
  split; [apply latest_nonempty; exact Hne|]. split.
  - rewrite <- (last_map Date_), <- E, filtered_dates.
    pose proof (domain_pairs_check _ selection_last_dates lo hi
                  ltac:(lia) ltac:(lia)) as H.
    cbv beta in H. apply orb_true_iff in H. destruct H as [H|H].
    + apply negb_true_iff, Z.leb_gt in H. lia.
    + apply date_eqb_eq in H. rewrite <- H. apply last_default.
      rewrite <- (filtered_dates sin_ gauss st0), E. discriminate.
  - rewrite (latest_nonempty _ r0 Hne'). f_equal.
    rewrite <- E. rewrite !filtered_df_filter.
    rewrite filtered_df_filter in E.
    symmetry.
    apply (last_selected Row (fun r => year (Date_ r))
             (df_from sin_ gauss st0) lo 2000 hi r0
             (df_years_sorted sin_ gauss st0)); [lia|].
    change (filter (in_year_range (lo, hi)) (df_from sin_ gauss st0) <> []).
    rewrite E. discriminate.
Qed.

(** ** Sub-scores of clipped readings *)

Lemma clip1_lower (x lo hi m : Q) : m <= x -> m <= hi -> m <= clip1 x lo hi.
Proof.
  intros Hx Hhi. unfold clip1, minimum, maximum.
  destruct (Qle_bool x lo) eqn:E1.
  - apply Qle_bool_iff in E1.
    destruct (Qle_bool lo hi) eqn:E2; lra.
  - destruct (Qle_bool x hi) eqn:E2; lra.
Qed.

Lemma clip1_upper (x lo hi M : Q) : x <= M -> lo <= M -> clip1 x lo hi <= M.
Proof.
  intros Hx Hlo. unfold clip1, minimum, maximum.
  destruct (Qle_bool x lo) eqn:E1.
  - destruct (Qle_bool lo hi) eqn:E2; [lra|].
    apply Qle_bool_false in E2. lra.
  - destruct (Qle_bool x hi) eqn:E2; [lra|].
    apply Qle_bool_false in E2. lra.
Qed.

Lemma clip1_gt (x lo hi c : Q) :
  lo <= c -> c < hi -> (c < clip1 x lo hi <-> c < x).
Proof.
  intros Hlo Hhi. unfold clip1, minimum, maximum.
  destruct (Qle_bool x lo) eqn:E1.
  - apply Qle_bool_iff in E1.
    destruct (Qle_bool lo hi) eqn:E2;
      [|apply Qle_bool_false in E2]; split; intros H; lra.
  - apply Qle_bool_false in E1.
    destruct (Qle_bool x hi) eqn:E2.
    + tauto.
    + apply Qle_bool_false in E2. split; intros H; lra.
Qed.

Lemma tds_score1_tight (x : Q) :
  150 <= x <= 600 -> 20 <= tds_score1 x <= 100.
Proof.
  intros Hx. unfold tds_score1.
  change ((x - 200) / 5) with ((x - 200) * (1 # 5)).
  split; [apply clip1_lower | apply clip1_bounds]; lra.
Qed.

Lemma turbidity_score1_tight (x : Q) :
  0.5 <= x <= 8 -> 0 <= turbidity_score1 x <= 92.5.
Proof.
  intros Hx. unfold turbidity_score1.
  split; [apply clip1_bounds | apply clip1_upper]; lra.
Qed.

Lemma do_score1_tight (x : Q) : 4 <= x <= 9 -> 48 <= do_score1 x <= 100.
Proof.
  intros Hx. unfold do_score1.
  split; [apply clip1_lower | apply clip1_bounds]; lra.
Qed.

Lemma tds_at_range (sin_ : Q -> Q) (gauss : Z -> nat -> Q) (i : nat) :
  150 <= tds_at sin_ gauss i <= 600.
Proof. unfold tds_at. apply clip1_bounds. lra. Qed.

Lemma turbidity_at_range (sin_ : Q -> Q) (gauss : Z -> nat -> Q) (i : nat) :
  0.5 <= turbidity_at sin_ gauss i <= 8.
Proof. unfold turbidity_at. apply clip1_bounds. lra. Qed.

Lemma do_at_range (sin_ : Q -> Q) (gauss : Z -> nat -> Q) (i : nat) :
  4 <= do_at sin_ gauss i <= 9.
Proof. unfold do_at. apply clip1_bounds. lra. Qed.

Lemma quality_at_window (sin_ : Q -> Q) (gauss : Z -> nat -> Q) (i : nat) :
  (ph_score1 (ph_at sin_ gauss i) + 68) / 4 <= quality_at sin_ gauss i
  /\ quality_at sin_ gauss i <= 98.125.
Proof.
  unfold quality_at.
  pose proof (tds_score1_tight _ (tds_at_range sin_ gauss i)).
  pose proof (turbidity_score1_tight _ (turbidity_at_range sin_ gauss i)).
  pose proof (do_score1_tight _ (do_at_range sin_ gauss i)).
  pose proof (ph_score1_le_100 (ph_at sin_ gauss i)).
  set (a := ph_score1 _) in *. set (b := tds_score1 _) in *.
  set (c := turbidity_score1 _) in *. set (e := do_score1 _) in *.
  change ((a + 68) / 4) with ((a + 68) * (1 # 4)).
  change ((a + b + c + e) / 4) with ((a + b + c + e) * (1 # 4)).
  split; lra.
Qed.

(** X8: because the readings are clipped before they are scored, the
    sub-score columns of the generated frame are tighter than their own
    clips: the TDS sub-score is never below 20, the turbidity sub-score never
    above 92.5 and the dissolved-oxygen sub-score never below 48. *)
Theorem X8_sub_scores_of_clipped_readings
        (sin_ : Q -> Q) (gauss : Z -> nat -> Q) (st0 : RandomState) :
  let loc := fst (generate_locals sin_ gauss st0) in
  Forall (fun s => 20 <= s <= 100) (l_tds_score loc)
  /\ Forall (fun s => 0 <= s <= 92.5) (l_turbidity_score loc)
  /\ Forall (fun s => 48 <= s <= 100) (l_do_score loc).
Proof.
  cbv zeta. rewrite locals_closed_form.
  cbn [l_tds_score l_turbidity_score l_do_score].
  split; [|split]; apply Forall_map_all; intros i.
  - apply tds_score1_tight, tds_at_range.
  - apply turbidity_score1_tight, turbidity_at_range.
  - apply do_score1_tight, do_at_range.
Qed.

(** X9: in every row of the generated frame the quality score is at most
    98.125 and at least a quarter of (pH sub-score + 68), whatever the
    deviates and sine values are. *)
Theorem X9_quality_window
        (sin_ : Q -> Q) (gauss : Z -> nat -> Q) (st0 : RandomState) :
  Forall (fun r => (ph_score1 (pH r) + 68) / 4 <= Quality_Score r
                   /\ Quality_Score r <= 98.125)
         (df_from sin_ gauss st0).
Proof.
  rewrite df_closed_form. apply Forall_zip_with. intros d i.
  cbn [Quality_Score pH row_at]. apply quality_at_window.
Qed.

Lemma Forall_zip_with_in {A B C : Type} (P : C -> Prop) (f : A -> B -> C)
      (xs : list A) (ys : list B) :
  (forall a b, In b ys -> P (f a b)) -> Forall P (zip_with f xs ys).
Proof.
  revert ys; induction xs as [|x xs IH]; intros [|y ys] H; simpl;
    constructor.
  - apply H. now left.
  - apply IH. intros a b Hb. apply H. now right.
Qed.

(** X10: if the sine values lie in [-1, 1] and the first 310 deviates of the
    seed-42 stream lie in [-K, K], then every row has its pH within
    0.3 K + 0.2 of 7.5 and a quality score of at least 41 - 1.5 K; the later
    deviates do not matter.  For K up to 27 the quality score is
    positive. *)
Theorem X10_bounded_deviates_bound_ph_and_quality
        (sin_ : Q -> Q) (gauss : Z -> nat -> Q) (st0 : RandomState) (K : Q) :
  (forall x, -1 <= sin_ x <= 1) ->
  (forall k, (k < 310)%nat -> - K <= gauss 42%Z k <= K) ->
  Forall (fun r => 7.3 - 0.3 * K <= pH r <= 7.7 + 0.3 * K
                   /\ 41 - 1.5 * K <= Quality_Score r)
         (df_from sin_ gauss st0).
Proof.
  intros Hsin Hz. rewrite df_closed_form.
  apply Forall_zip_with_in. intros d i Hi.
  apply in_seq in Hi. rewrite n0_value in Hi.
  cbn [pH Quality_Score row_at].
  pose proof (Hz i ltac:(lia)) as Hzi.
  pose proof (Hsin (idx i * 0.1)) as Hsi.
  assert (Hph : 7.3 - 0.3 * K <= ph_at sin_ gauss i <= 7.7 + 0.3 * K).
  { unfold ph_at. lra. }
  split; [exact Hph|].
  destruct (quality_at_window sin_ gauss i) as [Hlow _].
  assert (Habs : Qabs (7.5 - ph_at sin_ gauss i) <= 0.3 * K + 0.2).
  { apply Qabs_Qle_condition. lra. }
  unfold ph_score1 in Hlow.
  set (q := quality_at sin_ gauss i) in *.
  set (a := Qabs _) in *.
  change ((100 - a * 20 + 68) / 4) with ((100 - a * 20 + 68) * (1 # 4)) in Hlow.
  lra.
Qed.

(** ** Labels against sub-scores *)

Lemma string_if_eq (b : bool) (x y : string) :
  x <> y -> ((if b then x else y) = x <-> b = true).
Proof.
  intros Hxy. destruct b; split; intros H; try reflexivity;
    try discriminate; exfalso; apply Hxy; symmetry; exact H.
Qed.

(** X11: the headline labels agree with the sub-scores of the same reading:
    pH is "Optimal" exactly when the pH sub-score is at least 80, TDS is
    "Good" exactly when TDS is below 300, which is when the TDS sub-score is
    above 80, and turbidity is "Clear" exactly when turbidity is below 5,
    which is when the turbidity sub-score is above 25. *)
Theorem X11_labels_agree_with_sub_scores :
  (forall ph, ph_delta ph = "Optimal"%string <-> 80 <= ph_score1 ph)
  /\ (forall tds, (tds_delta tds = "Good"%string <-> tds < 300)
                  /\ (tds_delta tds = "Good"%string <-> 80 < tds_score1 tds))
  /\ (forall t, (turbidity_delta t = "Clear"%string <-> t < 5)
                /\ (turbidity_delta t = "Clear"%string
                    <-> 25 < turbidity_score1 t)).
Proof.
  split; [|split].
  - intros ph. unfold ph_delta.
    rewrite string_if_eq by discriminate.
    rewrite andb_true_iff, !Qle_bool_iff. unfold ph_score1.
    assert (H : Qabs (7.5 - ph) <= 1 <-> 6.5 <= ph <= 8.5).
    { rewrite Qabs_Qle_condition. split; intros H; split; lra. }
    rewrite <- H. split; intros H'; lra.
  - intros tds.
    assert (H : tds_delta tds = "Good"%string <-> tds < 300).
    { unfold tds_delta. rewrite string_if_eq by discriminate.
      apply Qlt_bool_iff. }
    split; [exact H|]. rewrite H. unfold tds_score1.
    change ((tds - 200) / 5) with ((tds - 200) * (1 # 5)).
    rewrite clip1_gt by lra. split; intros H'; lra.
  - intros t.
    assert (H : turbidity_delta t = "Clear"%string <-> t < 5).
    { unfold turbidity_delta. rewrite string_if_eq by discriminate.
      apply Qlt_bool_iff. }
    split; [exact H|]. rewrite H. unfold turbidity_score1.
    rewrite clip1_gt by lra. split; intros H'; lra.
Qed.

(** X12: the quality label is one of "Excellent", "Good" and "Fair", and it
    never gets worse when the score grows: above an "Excellent" score
    everything is "Excellent", below a "Fair" score everything is "Fair". *)
Theorem X12_status_is_monotone (q1 q2 : Q) :
  q1 <= q2 ->
  (status q1 = "Excellent"%string -> status q2 = "Excellent"%string)
  /\ (status q2 = "Fair"%string -> status q1 = "Fair"%string)
  /\ (status q1 = "Good"%string -> status q2 <> "Fair"%string)
  /\ (status q1 = "Excellent"%string \/ status q1 = "Good"%string
      \/ status q1 = "Fair"%string).
Proof.
  intros Hq. unfold status.
  destruct (Qlt_bool 80 q1) eqn:A1; destruct (Qlt_bool 60 q1) eqn:B1;
    destruct (Qlt_bool 80 q2) eqn:A2; destruct (Qlt_bool 60 q2) eqn:B2;
    repeat split; try discriminate; try tauto;
    repeat match goal with
           | H : Qlt_bool _ _ = true |- _ => apply Qlt_bool_iff in H
           | H : Qlt_bool ?a ?b = false |- _ =>
               assert (~ a < b) by (rewrite <- Qlt_bool_iff; congruence);
               clear H
           end;
    exfalso; lra.
Qed.

(** ** Averages *)

Lemma count_succ (n : nat) :
  inject_Z (Z.of_nat (S n)) == inject_Z (Z.of_nat n) + 1.
Proof.
  rewrite Nat2Z.inj_succ. unfold Z.succ. rewrite inject_Z_plus. reflexivity.
Qed.

Lemma count_pos (n : nat) : 0 < inject_Z (Z.of_nat (S n)).
Proof.
  change 0 with (inject_Z 0). rewrite <- Zlt_Qlt. lia.
Qed.

Lemma total_lower (xs : list Q) (lo : Q) :
  Forall (fun x => lo <= x) xs ->
  lo * inject_Z (Z.of_nat (length xs)) <= total xs.
Proof.
  induction 1 as [|x xs Hx _ IH]; cbn [length total fold_right].
  - change (inject_Z (Z.of_nat 0)) with 0. lra.
  - fold (total xs). rewrite count_succ. lra.
Qed.

Lemma total_upper (xs : list Q) (hi : Q) :
  Forall (fun x => x <= hi) xs ->
  total xs <= hi * inject_Z (Z.of_nat (length xs)).
Proof.
  induction 1 as [|x xs Hx _ IH]; cbn [length total fold_right].
  - change (inject_Z (Z.of_nat 0)) with 0. lra.
  - fold (total xs). rewrite count_succ. lra.
Qed.

Lemma mean_lower (xs : list Q) (lo m : Q) :
  Forall (fun x => lo <= x) xs -> mean xs = Some m -> lo <= m.
Proof.
  intros Hall Hm. destruct xs as [|x t]; [discriminate|].
  injection Hm as <-.
  apply Qle_shift_div_l; [exact (count_pos (length t))|].
  exact (total_lower (x :: t) lo Hall).
Qed.

Lemma mean_upper (xs : list Q) (hi m : Q) :
  Forall (fun x => x <= hi) xs -> mean xs = Some m -> m <= hi.
Proof.
  intros Hall Hm. destruct xs as [|x t]; [discriminate|].
  injection Hm as <-.
  apply Qle_shift_div_r; [exact (count_pos (length t))|].
  exact (total_upper (x :: t) hi Hall).
Qed.

Lemma mean_defined (xs : list Q) : xs <> [] -> exists m, mean xs = Some m.
Proof.
  destruct xs as [|x t]; [congruence|]. intros _. eexists. reflexivity.
Qed.

Lemma Forall_map_of {A B : Type} (P : B -> Prop) (f : A -> B) (l : list A) :
  Forall (fun a => P (f a)) l -> Forall P (map f l).
Proof.
  induction 1; simpl; constructor; assumption.
Qed.

Lemma generated_rows_in_range (sin_ : Q -> Q) (gauss : Z -> nat -> Q)
      (st0 : RandomState) :
  Forall (fun r => (150 <= TDS r <= 600)
                   /\ (0.5 <= Turbidity r <= 8)
                   /\ (4 <= Dissolved_Oxygen r <= 9)
                   /\ Quality_Score r <= 98.125
                   /\ Quality_Score r
                      = (ph_score1 (pH r) + tds_score1 (TDS r)
                         + turbidity_score1 (Turbidity r)
                         + do_score1 (Dissolved_Oxygen r)) / 4)
         (df_from sin_ gauss st0).
Proof.
  rewrite df_closed_form. apply Forall_zip_with. intros d i.
  cbn [TDS Turbidity Dissolved_Oxygen Quality_Score pH row_at].
  split; [apply tds_at_range|].
  split; [apply turbidity_at_range|].
  split; [apply do_at_range|].
  split; [apply quality_at_window | reflexivity].
Qed.

(** X13: for every year range that selects at least one row, all five
    averages of the statistics table are numbers, the average TDS lies in
    [150, 600], the average turbidity in [0.5, 8], the average dissolved
    oxygen in [4, 9] and the average quality score is at most 98.125; on an
    empty frame every average is NaN. *)
Theorem X13_averages_stay_in_range
        (sin_ : Q -> Q) (gauss : Z -> nat -> Q) (st0 : RandomState)
        (year_range : Z * Z) :
  filtered_df (df_from sin_ gauss st0) year_range <> [] ->
  (exists p t u o q,
      averages (filtered_df (df_from sin_ gauss st0) year_range)
      = mkAverages (Some p) (Some t) (Some u) (Some o) (Some q)
      /\ 150 <= t <= 600
      /\ 0.5 <= u <= 8
      /\ 4 <= o <= 9
      /\ q <= 98.125)
  /\ averages [] = mkAverages None None None None None.
Proof.
  intros Hne. split; [|reflexivity].
  pose proof (generated_rows_in_range sin_ gauss st0) as Hall.
  apply (Forall_filter_keep _ (in_year_range year_range)) in Hall.
  rewrite <- filtered_df_filter in Hall.
  set (sel := filtered_df (df_from sin_ gauss st0) year_range) in *.
  assert (Hmap : forall f : Row -> Q, map f sel <> []).
  { intros f H. apply map_eq_nil in H. exact (Hne H). }
  destruct (mean_defined _ (Hmap pH)) as [p Hp].
  destruct (mean_defined _ (Hmap TDS)) as [t Ht].
  destruct (mean_defined _ (Hmap Turbidity)) as [u Hu].
  destruct (mean_defined _ (Hmap Dissolved_Oxygen)) as [o Ho].
  destruct (mean_defined _ (Hmap Quality_Score)) as [q Hq].
  exists p, t, u, o, q. unfold averages. rewrite Hp, Ht, Hu, Ho, Hq.
  split; [reflexivity|].
  split; [|split; [|split]].
  - split; [eapply mean_lower | eapply mean_upper]; try exact Ht;
      apply Forall_map_of; eapply Forall_impl; try exact Hall;
      cbn beta; intros r Hr; apply Hr.
  - split; [eapply mean_lower | eapply mean_upper]; try exact Hu;
      apply Forall_map_of; eapply Forall_impl; try exact Hall;
      cbn beta; intros r Hr; apply Hr.
  - split; [eapply mean_lower | eapply mean_upper]; try exact Ho;
      apply Forall_map_of; eapply Forall_impl; try exact Hall;
      cbn beta; intros r Hr; apply Hr.
  - eapply mean_upper; try exact Hq.
    apply Forall_map_of. eapply Forall_impl; try exact Hall.
    cbn beta. intros r Hr. apply Hr.
Qed.

(** ** Column labels *)

Lemma points_of_numeric (rows : list Row) (name : string) (f : Row -> Q) :
  (forall r, getitem r name = inr (VFloat (f r))) ->
  points_of rows name = inr (map (fun r => (Date_ r, VFloat (f r))) rows).
Proof.
  intros H. induction rows as [|r rows IH]; [reflexivity|].
  cbn [points_of map]. rewrite H, IH. reflexivity.
Qed.

(** X15: whichever option of the parameter selector is chosen, it names a
    numeric column of the frame: the second chart gets one point per
    selected row, dated as the row and carrying that row's reading, and no
    lookup fails; a label that is not a column is refused. *)
Theorem X15_selected_parameter_is_a_column
        (filtered : list Row) (ui : option nat) :
  match ui with Some i => (i < length parameter_options)%nat | None => True end ->
  (exists f : Row -> Q,
      In f [pH; TDS; Turbidity; Dissolved_Oxygen]
      /\ line_points filtered (parameter ui)
         = inr (map (fun r => (Date_ r, VFloat (f r))) filtered))
  /\ line_points filtered "Quality Score"
     = inr (map (fun r => (Date_ r, VFloat (Quality_Score r))) filtered)
  /\ (forall name, ~ In name columns ->
        line_points filtered name = inl "ValueError"%string
        /\ forall r, getitem r name = inl "KeyError"%string).
Proof.
  intros Hui. split; [|split].
  - assert (Hcases : parameter ui = "pH"%string
                     \/ parameter ui = "TDS (mg/L)"%string
                     \/ parameter ui = "Turbidity (NTU)"%string
                     \/ parameter ui = "Dissolved Oxygen (mg/L)"%string).
    { destruct ui as [i|]; [|now left].
      cbn [length parameter_options] in Hui.
      destruct i as [|[|[|[|i]]]]; [tauto | tauto | tauto | tauto | lia]. }
    destruct Hcases as [H|[H|[H|H]]]; rewrite H.
    + exists pH. split; [now left|].
      unfold line_points. cbn [existsb columns String.eqb Ascii.eqb Bool.eqb orb].
      apply points_of_numeric. reflexivity.
    + exists TDS. split; [now right; left|].
      unfold line_points. cbn [existsb columns String.eqb Ascii.eqb Bool.eqb orb].
      apply points_of_numeric. reflexivity.
    + exists Turbidity. split; [now right; right; left|].
      unfold line_points. cbn [existsb columns String.eqb Ascii.eqb Bool.eqb orb].
      apply points_of_numeric. reflexivity.
    + exists Dissolved_Oxygen. split; [now right; right; right; left|].
      unfold line_points. cbn [existsb columns String.eqb Ascii.eqb Bool.eqb orb].
      apply points_of_numeric. reflexivity.
  - unfold line_points. cbn [existsb columns String.eqb Ascii.eqb Bool.eqb orb].
    apply points_of_numeric. reflexivity.
  - intros name Hname.
    assert (Hneq : forall c, In c columns -> (name =? c)%string = false).
    { intros c Hc. apply String.eqb_neq. intros ->. exact (Hname Hc). }
    split.
    + unfold line_points.
      replace (existsb (String.eqb name) columns) with false; [reflexivity|].
      symmetry. apply not_true_is_false. intros H.
      apply existsb_exists in H. destruct H as (c & Hc & Heq).
      rewrite (Hneq c Hc) in Heq. discriminate.
    + intros r. unfold getitem.
      rewrite !Hneq by (cbn; tauto). reflexivity.
Qed.

(** ** Shape of the columns *)

(** X16: the generator's ten arrays all have [n] = 310 entries, one per
    date, so the frame is built from columns of equal length and no entry
    of any column is left out of it. *)
Theorem X16_columns_have_equal_length
        (sin_ : Q -> Q) (gauss : Z -> nat -> Q) (st0 : RandomState) :
  let loc := fst (generate_locals sin_ gauss st0) in
  l_n loc = 310%nat
  /\ length (l_dates loc) = l_n loc
  /\ Forall (fun col => length col = l_n loc)
            [l_ph loc; l_tds loc; l_turbidity loc; l_do loc;
             l_ph_score loc; l_tds_score loc; l_turbidity_score loc;
             l_do_score loc; l_quality_score loc]
  /\ length (l_df loc) = l_n loc
  /\ map pH (l_df loc) = l_ph loc
  /\ map TDS (l_df loc) = l_tds loc
  /\ map Turbidity (l_df loc) = l_turbidity loc
  /\ map Dissolved_Oxygen (l_df loc) = l_do loc.
Proof.
  cbv zeta. rewrite locals_closed_form.
  cbn [l_n l_dates l_ph l_tds l_turbidity l_do l_ph_score l_tds_score
       l_turbidity_score l_do_score l_quality_score l_df].
  assert (Hd : length dates0 = length (seq 0 n0))
    by (rewrite length_seq; reflexivity).
  split; [exact n0_value|]. split; [reflexivity|].
  split; [|split; [|split; [|split; [|split]]]].
  - repeat constructor; rewrite length_map, length_seq; reflexivity.
  - rewrite <- (length_map Date_).
    rewrite (map_zip_with_left (row_at sin_ gauss) Date_ dates0 (seq 0 n0)
               (fun a b => eq_refl) Hd).
    reflexivity.
  - apply map_zip_with_right; [reflexivity | exact Hd].
  - apply map_zip_with_right; [reflexivity | exact Hd].
  - apply map_zip_with_right; [reflexivity | exact Hd].
  - apply map_zip_with_right; [reflexivity | exact Hd].
Qed.

(** ** Concrete runs of the further properties *)

Lemma X5_split_witness :
  ((2000 <= 2009 + 1)%Z /\ (2009 <= 2025)%Z)
  /\ filtered_df flat_frame (2000, 2025)%Z
     = filtered_df flat_frame (2000, 2009)%Z
       ++ filtered_df flat_frame (2009 + 1, 2025)%Z.
Proof.
  split; [lia|].
  apply (X5_selection_splits_at_a_year
           (fun _ => 0) (fun _ _ => 0) (mkRandomState 0 0) 2000 2009 2025);
    lia.
Defined.

Lemma X6_size_witness :
  offered 2000 2025 (Some (2010, 2025)%Z) = true
  /\ Z.of_nat (length (filtered_df flat_frame
                         (year_range (Some (2010, 2025)%Z))))
     = 190%Z.
Proof.
  split; [reflexivity|].
  apply (X6_selection_size (fun _ => 0) (fun _ _ => 0) (mkRandomState 0 0)
           (Some (2010, 2025)%Z)).
  reflexivity.
Defined.

Lemma X7_latest_witness :
  offered 2000 2025 (Some (2003, 2010)%Z) = true
  /\ exists r,
       latest (filtered_df flat_frame (year_range (Some (2003, 2010)%Z)))
       = inr r
       /\ Date_ r = mkDate 2010 12 31
       /\ latest (filtered_df flat_frame (2000, 2010)%Z) = inr r.
Proof.
  split; [reflexivity|].
  apply (X7_latest_depends_on_upper_bound
           (fun _ => 0) (fun _ _ => 0) (mkRandomState 0 0)
           (Some (2003, 2010)%Z)).
  reflexivity.
Defined.

Lemma X10_bounded_witness :
  ((forall x : Q, -1 <= (fun _ : Q => 0) x <= 1)
   /\ (forall k : nat, (k < 310)%nat ->
                       - (1) <= (fun (_ : Z) (_ : nat) => 0) 42%Z k <= 1))
  /\ Forall (fun r => 7.3 - 0.3 * 1 <= pH r <= 7.7 + 0.3 * 1
                      /\ 41 - 1.5 * 1 <= Quality_Score r)
            flat_frame.
Proof.
  split.
  - split; intros; cbv beta; lra.
  - apply (X10_bounded_deviates_bound_ph_and_quality
             (fun _ => 0) (fun _ _ => 0) (mkRandomState 0 0) 1);
      intros; cbv beta; lra.
Defined.

Lemma X12_monotone_witness :
  80.1 <= 95
  /\ (status 80.1 = "Excellent"%string -> status 95 = "Excellent"%string).
Proof.
  split; [lra|].
  apply (X12_status_is_monotone 80.1 95). lra.
Defined.

Lemma X13_averages_witness :
  filtered_df flat_frame (2010, 2010)%Z <> []
  /\ exists p t u o q,
       averages (filtered_df flat_frame (2010, 2010)%Z)
       = mkAverages (Some p) (Some t) (Some u) (Some o) (Some q)
       /\ 150 <= t <= 600
       /\ 0.5 <= u <= 8
       /\ 4 <= o <= 9
       /\ q <= 98.125.
Proof.
  split.
  - vm_compute. discriminate.
  - apply (X13_averages_stay_in_range
             (fun _ => 0) (fun _ _ => 0) (mkRandomState 0 0) (2010, 2010)%Z).
    vm_compute. discriminate.
Defined.

Lemma X15_parameter_witness :
  (2 < length parameter_options)%nat
  /\ exists f : Row -> Q,
       In f [pH; TDS; Turbidity; Dissolved_Oxygen]
       /\ line_points flat_frame (parameter (Some 2%nat))
          = inr (map (fun r => (Date_ r, VFloat (f r))) flat_frame).
Proof.
  split.
  - cbn. lia.
  - apply (X15_selected_parameter_is_a_column flat_frame (Some 2%nat)).
    cbn. lia.
Defined.
